(** * Millisecond granularity for the date and time field state

  A shallow embedding of the millisecond-granularity support of the
  date/time field packages:

  - [@react-stately/datepicker]: the field-option tables and the segment
    tables and switches of [utils.ts], [useDateFieldState.ts] and
    [placeholders.ts], as the implementation plan gives them;
  - [@react-aria/datepicker/src/useDisplayNames.ts]: the display-name
    lookup with its polyfill.

  Conventions.  Identifiers that the source compares with [===] (segment
  types, granularities, option keys) are ASCII and are kept as [string] or
  as an enumeration when the source gives them a closed union type.
  Display text is a JavaScript string, that is a sequence of UTF-16 code
  units, so that [length] is the [.length] of the source. *)

From Stdlib Require Import ZArith List String Bool Lia.
Import ListNotations.
Local Open Scope Z_scope.

(** ** JavaScript display strings *)

Definition jsstring := list N.

(** U+2013 EN DASH, one UTF-16 code unit. *)
Definition EN_DASH : N := 8211%N.

(** ** Type definitions ([@react-types/datepicker/src/index.d.ts]) *)

(** [type Granularity = 'day' | 'hour' | 'minute' | 'second' | 'millisecond'] *)
Inductive Granularity : Type :=
| g_day | g_hour | g_minute | g_second | g_millisecond.

Definition Locale := string.

(** ** Format options ([@react-stately/datepicker/src/utils.ts]) *)

Module Utils.

(** The fixed ordering of fields the granularity lookup walks:
    year, month, day, hour, minute, second, millisecond. *)
Inductive FieldKey : Type :=
| k_year | k_month | k_day | k_hour | k_minute | k_second | k_millisecond.

Definition FieldKey_eqb (a b : FieldKey) : bool :=
  match a, b with
  | k_year, k_year | k_month, k_month | k_day, k_day | k_hour, k_hour
  | k_minute, k_minute | k_second, k_second
  | k_millisecond, k_millisecond => true
  | _, _ => false
  end.

(** Display forms of the [Intl.DateTimeFormatOptions] fields. *)
Inductive DisplayForm : Type :=
| numeric | two_digit | long | short | narrow.

(** [type FieldOptions = Pick<Intl.DateTimeFormatOptions, 'year' | 'month' |
    'day' | 'hour' | 'minute' | 'second'> & {fractionalSecondDigits?: 1|2|3}].
    Every property is optional; an absent property is [None]. *)
Record FieldOptions : Type := mkFieldOptions {
  year : option DisplayForm;
  month : option DisplayForm;
  day : option DisplayForm;
  hour : option DisplayForm;
  minute : option DisplayForm;
  second : option DisplayForm;
  fractionalSecondDigits : option Z
}.

(** [DEFAULT_FIELD_OPTIONS], with the millisecond entry. *)
Definition DEFAULT_FIELD_OPTIONS : FieldOptions :=
  {| year := Some numeric;
     month := Some numeric;
     day := Some numeric;
     hour := Some numeric;
     minute := Some two_digit;
     second := Some two_digit;
     fractionalSecondDigits := Some 3 |}.

(** The empty options object [{}]. *)
Definition noOptions : FieldOptions :=
  {| year := None; month := None; day := None; hour := None;
     minute := None; second := None; fractionalSecondDigits := None |}.

(** The ordered keys of the granularity lookup, ['millisecond'] added to
    the chain. *)
Definition keys : list FieldKey :=
  [k_year; k_month; k_day; k_hour; k_minute; k_second; k_millisecond].

Definition keyOfGranularity (g : Granularity) : FieldKey :=
  match g with
  | g_day => k_day
  | g_hour => k_hour
  | g_minute => k_minute
  | g_second => k_second
  | g_millisecond => k_millisecond
  end.

(** [Array.prototype.indexOf], [-1] when the key is absent. *)
Fixpoint indexOf (k : FieldKey) (l : list FieldKey) : Z :=
  match l with
  | [] => -1
  | x :: r =>
      if FieldKey_eqb x k then 0
      else let i := indexOf k r in if i <? 0 then -1 else i + 1
  end.

(** [keys.slice(0, endIdx + 1)]. *)
Definition sliceTo (endIdx : Z) (l : list FieldKey) : list FieldKey :=
  firstn (Z.to_nat (endIdx + 1)) l.

(** A property of the spread [{...defaults, ...fieldOptions}]: the explicit
    value when supplied, the default otherwise. *)
Definition override {A : Type} (explicit dflt : option A) : option A :=
  match explicit with
  | Some v => Some v
  | None => dflt
  end.

Definition spread (dflt explicit : FieldOptions) : FieldOptions :=
  {| year := override (year explicit) (year dflt);
     month := override (month explicit) (month dflt);
     day := override (day explicit) (day dflt);
     hour := override (hour explicit) (hour dflt);
     minute := override (minute explicit) (minute dflt);
     second := override (second explicit) (second dflt);
     fractionalSecondDigits :=
       override (fractionalSecondDigits explicit) (fractionalSecondDigits dflt) |}.

(** One step of the reduction over the selected keys, [opts[key] =
    fieldOptions[key]].  The field options have no property named
    ['millisecond'], so that key copies nothing. *)
Definition addKey (from opts : FieldOptions) (k : FieldKey) : FieldOptions :=
  match k with
  | k_year =>
      mkFieldOptions (year from) (month opts) (day opts) (hour opts)
        (minute opts) (second opts) (fractionalSecondDigits opts)
  | k_month =>
      mkFieldOptions (year opts) (month from) (day opts) (hour opts)
        (minute opts) (second opts) (fractionalSecondDigits opts)
  | k_day =>
      mkFieldOptions (year opts) (month opts) (day from) (hour opts)
        (minute opts) (second opts) (fractionalSecondDigits opts)
  | k_hour =>
      mkFieldOptions (year opts) (month opts) (day opts) (hour from)
        (minute opts) (second opts) (fractionalSecondDigits opts)
  | k_minute =>
      mkFieldOptions (year opts) (month opts) (day opts) (hour opts)
        (minute from) (second opts) (fractionalSecondDigits opts)
  | k_second =>
      mkFieldOptions (year opts) (month opts) (day opts) (hour opts)
        (minute opts) (second from) (fractionalSecondDigits opts)
  | k_millisecond => opts
  end.

(** The plan's change to [getFormatOptions]: "when granularity is
    'millisecond', add [fractionalSecondDigits: 3] to the options". *)
Definition addFractionalSecondDigits (granularity : Granularity)
  (opts : FieldOptions) : FieldOptions :=
  match granularity with
  | g_millisecond =>
      mkFieldOptions (year opts) (month opts) (day opts) (hour opts)
        (minute opts) (second opts) (Some 3)
  | _ => opts
  end.

(** Modelled from the spec: the walk of [getFormatOptions], of which the
    plan gives only the changes (the millisecond key joins the ordered keys
    of the granularity lookup).  Following the resolver contract, the fixed
    ordering is walked from the year up to and including the requested
    granularity; each included field takes the explicit display form when
    one is supplied and the default otherwise; the explicit options never
    decide which fields are included. *)
Definition selectFields (fieldOptions : FieldOptions) (granularity : Granularity)
  : FieldOptions :=
  let merged := spread DEFAULT_FIELD_OPTIONS fieldOptions in
  let endIdx := indexOf (keyOfGranularity granularity) keys in
  fold_left (addKey merged) (sliceTo endIdx keys) noOptions.

(** [getFormatOptions(fieldOptions, {granularity})]: the fields selected by
    the granularity, then the plan's change for the millisecond. *)
Definition getFormatOptions (fieldOptions : FieldOptions) (granularity : Granularity)
  : FieldOptions :=
  addFractionalSecondDigits granularity (selectFields fieldOptions granularity).

(** Modelled from the spec: the [hasTime] check, "requested granularity is
    hour or finer", millisecond included. *)
Definition hasTime (granularity : Granularity) : bool :=
  match granularity with
  | g_day => false
  | _ => true
  end.

(** The recognised granularity identifiers. *)
Definition granularityOfString (s : string) : option Granularity :=
  if String.eqb s "day" then Some g_day
  else if String.eqb s "hour" then Some g_hour
  else if String.eqb s "minute" then Some g_minute
  else if String.eqb s "second" then Some g_second
  else if String.eqb s "millisecond" then Some g_millisecond
  else None.

Definition granularityName (g : Granularity) : string :=
  match g with
  | g_day => "day" | g_hour => "hour" | g_minute => "minute"
  | g_second => "second" | g_millisecond => "millisecond"
  end.

Inductive ResolveError : Type := InvalidGranularity.

(** Modelled from the spec: the resolver's entry point on granularity
    identifiers, [resolve(granularity, explicitOptions?)], which fails with
    [InvalidGranularity] outside the five recognised values. *)
Definition resolve (granularity : string) (explicitOptions : option FieldOptions)
  : ResolveError + FieldOptions :=
  match granularityOfString granularity with
  | None => inl InvalidGranularity
  | Some g =>
      inr (getFormatOptions
             (match explicitOptions with Some o => o | None => noOptions end) g)
  end.

Definition isSome {A : Type} (o : option A) : bool :=
  match o with Some _ => true | None => false end.

(** Whether an options object makes the formatter render a field: a display
    form for year .. second, a fractional-digit count for the millisecond. *)
Definition includesField (opts : FieldOptions) (k : FieldKey) : bool :=
  match k with
  | k_year => isSome (year opts)
  | k_month => isSome (month opts)
  | k_day => isSome (day opts)
  | k_hour => isSome (hour opts)
  | k_minute => isSome (minute opts)
  | k_second => isSome (second opts)
  | k_millisecond => isSome (fractionalSecondDigits opts)
  end.

(** Position of a field in the fixed ordering. *)
Definition rank (k : FieldKey) : Z :=
  match k with
  | k_year => 0 | k_month => 1 | k_day => 2 | k_hour => 3
  | k_minute => 4 | k_second => 5 | k_millisecond => 6
  end.

End Utils.

(** ** Date and time values ([@internationalized/date]) *)

Module DateValue.

Record TimeFields : Type := mkTimeFields {
  hour : Z;
  minute : Z;
  second : Z;
  millisecond : Z
}.

Record DateFields : Type := mkDateFields {
  era : string;
  year : Z;
  month : Z;
  day : Z
}.

(** The three value shapes: time-only, date and time, date and time with a
    zone.  Each of [Time], [CalendarDateTime] and [ZonedDateTime] has a
    [millisecond] property. *)
Inductive DateTimeValue : Type :=
| TimeShape (t : TimeFields)
| CalendarDateTimeShape (d : DateFields) (t : TimeFields)
| ZonedDateTimeShape (d : DateFields) (t : TimeFields) (timeZone : string) (offset : Z).

Definition timeOf (v : DateTimeValue) : TimeFields :=
  match v with
  | TimeShape t => t
  | CalendarDateTimeShape _ t => t
  | ZonedDateTimeShape _ t _ _ => t
  end.

Definition withTime (v : DateTimeValue) (t : TimeFields) : DateTimeValue :=
  match v with
  | TimeShape _ => TimeShape t
  | CalendarDateTimeShape d _ => CalendarDateTimeShape d t
  | ZonedDateTimeShape d _ z o => ZonedDateTimeShape d t z o
  end.

(** An omitted constructor argument. *)
Definition orZero (arg : option Z) : Z :=
  match arg with
  | Some n => n
  | None => 0
  end.

(** Modelled from the spec: the constructors of the three value classes,
    which are not in the sources.  A value built without a millisecond
    ([new Time(12, 30, 45)]) has its millisecond defaulted to 0. *)
Definition newTime (h m s : Z) (ms : option Z) : DateTimeValue :=
  TimeShape (mkTimeFields h m s (orZero ms)).

Definition newCalendarDateTime (d : DateFields) (h m s : Z) (ms : option Z)
  : DateTimeValue :=
  CalendarDateTimeShape d (mkTimeFields h m s (orZero ms)).

Definition newZonedDateTime (d : DateFields) (timeZone : string) (offset : Z)
  (h m s : Z) (ms : option Z) : DateTimeValue :=
  ZonedDateTimeShape d (mkTimeFields h m s (orZero ms)) timeZone offset.

(** The values of the three shapes built without a millisecond argument. *)
Definition builtWithoutMillisecond (d : DateFields)
  (timeZone : string) (offset h m s : Z) : list DateTimeValue :=
  [newTime h m s None;
   newCalendarDateTime d h m s None;
   newZonedDateTime d timeZone offset h m s None].

(** [value.millisecond] *)
Definition getMillisecond (v : DateTimeValue) : Z := millisecond (timeOf v).

(** [value.second] *)
Definition getSecond (v : DateTimeValue) : Z := second (timeOf v).

(** The time fields [cycle] and [set] address. *)
Inductive TimeField : Type :=
| f_hour | f_minute | f_second | f_millisecond.

(** Division rounding up, [Math.ceil(a / b)] for [b > 0]. *)
Definition ceilDiv (a b : Z) : Z := - ((- a) / b).

(** Modelled from the spec: the arithmetic of [cycle] on one field with
    range [min .. max], which is not in the sources.  Without rounding the
    amount is added and the result wraps within the range.  With rounding
    "the result is rounded to a multiple of the step": the value moves to
    the next multiple of the step in the direction of travel and, past the
    end of the range, wraps to its start (the spec leaves the direction of
    rounding open). *)
Definition cycleValue (value amount min max : Z) (round : bool) : Z :=
  if round then
    let value := value + Z.sgn amount in
    let value := if value <? min then max else value in
    let div := Z.abs amount in
    let value :=
      if 0 <? amount then ceilDiv value div * div else (value / div) * div in
    if max <? value then min else value
  else
    let value := value + amount in
    if value <? min then max - (min - value - 1)
    else if max <? value then min + (value - max - 1)
    else value.

(** Modelled from the spec: [value.cycle(field, amount, {round})] on the
    time fields, each wrapping within its own range without touching the
    coarser fields (hours on the 24-hour cycle). *)
Definition cycle (v : DateTimeValue) (field : TimeField) (amount : Z) (round : bool)
  : DateTimeValue :=
  let t := timeOf v in
  withTime v
    match field with
    | f_hour =>
        mkTimeFields (cycleValue (hour t) amount 0 23 round)
          (minute t) (second t) (millisecond t)
    | f_minute =>
        mkTimeFields (hour t) (cycleValue (minute t) amount 0 59 round)
          (second t) (millisecond t)
    | f_second =>
        mkTimeFields (hour t) (minute t)
          (cycleValue (second t) amount 0 59 round) (millisecond t)
    | f_millisecond =>
        mkTimeFields (hour t) (minute t) (second t)
          (cycleValue (millisecond t) amount 0 999 round)
    end.

(** Modelled from the spec: [value.set({millisecond: n})], a new value with
    the one field replaced. *)
Definition setMillisecond (v : DateTimeValue) (n : Z) : DateTimeValue :=
  let t := timeOf v in
  withTime v (mkTimeFields (hour t) (minute t) (second t) n).

End DateValue.

(** ** Placeholders ([@react-stately/datepicker/src/placeholders.ts]) *)

Module Placeholders.

Section WithStrings.

(** [placeholders.getStringForLocale], the localized placeholder table. *)
Variable getStringForLocale : string -> Locale -> jsstring.

(** [getPlaceholder(field, value, locale)] *)
Definition getPlaceholder (field : string) (value : jsstring) (locale : Locale)
  : jsstring :=
  if (String.eqb field "era" || String.eqb field "dayPeriod")%bool then value
  else if (String.eqb field "year" || String.eqb field "month"
           || String.eqb field "day")%bool
  then getStringForLocale field locale
  else if String.eqb field "fractionalSecond" then [EN_DASH; EN_DASH; EN_DASH]
  else [EN_DASH; EN_DASH].

End WithStrings.

End Placeholders.

(** ** Segments ([@react-stately/datepicker/src/useDateFieldState.ts]) *)

Module DateFieldState.

(** [type SegmentType].  The millisecond field carries the name the
    platform formatter reports it under, ['fractionalSecond']. *)
Inductive SegmentType : Type :=
| era | year | month | day | hour | minute | second | fractionalSecond
| dayPeriod | literal | timeZoneName.

Definition SegmentType_eqb (a b : SegmentType) : bool :=
  match a, b with
  | era, era | year, year | month, month | day, day | hour, hour
  | minute, minute | second, second | fractionalSecond, fractionalSecond
  | dayPeriod, dayPeriod | literal, literal
  | timeZoneName, timeZoneName => true
  | _, _ => false
  end.

Definition segmentTypeName (t : SegmentType) : string :=
  match t with
  | era => "era" | year => "year" | month => "month" | day => "day"
  | hour => "hour" | minute => "minute" | second => "second"
  | fractionalSecond => "fractionalSecond" | dayPeriod => "dayPeriod"
  | literal => "literal" | timeZoneName => "timeZoneName"
  end.

(** [EDITABLE_SEGMENTS]; a type without an entry reads [undefined]. *)
Definition EDITABLE_SEGMENTS (t : SegmentType) : bool :=
  match t with
  | year | month | day | hour | minute | second | fractionalSecond
  | dayPeriod | era => true
  | literal | timeZoneName => false
  end.

(** [PAGE_STEP]; a type without an entry reads [undefined]. *)
Definition PAGE_STEP (t : SegmentType) : option Z :=
  match t with
  | year => Some 5
  | month => Some 2
  | day => Some 7
  | hour => Some 2
  | minute => Some 15
  | second => Some 15
  | fractionalSecond => Some 100
  | era | dayPeriod | literal | timeZoneName => None
  end.

(** The object [getSegmentLimits] returns. *)
Record SegmentLimits : Type := mkSegmentLimits {
  value : option Z;
  minValue : option Z;
  maxValue : option Z
}.

Section Switches.

(** The cases of the three switches that the plan leaves as they are. *)
Variable otherLimits : DateValue.DateTimeValue -> SegmentType -> SegmentLimits.
Variable otherAdd :
  DateValue.DateTimeValue -> SegmentType -> Z -> DateValue.DateTimeValue.
Variable otherSet :
  DateValue.DateTimeValue -> SegmentType -> Z -> DateValue.DateTimeValue.

(** [getSegmentLimits(date, type)] *)
Definition getSegmentLimits (date : DateValue.DateTimeValue) (type : SegmentType)
  : SegmentLimits :=
  match type with
  | fractionalSecond =>
      {| value := Some (DateValue.getMillisecond date);
         minValue := Some 0;
         maxValue := Some 999 |}
  | _ => otherLimits date type
  end.

(** [addSegment(value, part, amount)] *)
Definition addSegment (v : DateValue.DateTimeValue) (part : SegmentType) (amount : Z)
  : DateValue.DateTimeValue :=
  match part with
  | fractionalSecond => DateValue.cycle v DateValue.f_millisecond amount true
  | _ => otherAdd v part amount
  end.

(** [setSegment(value, part, segmentValue)] *)
Definition setSegment (v : DateValue.DateTimeValue) (part : SegmentType)
  (segmentValue : Z) : DateValue.DateTimeValue :=
  match part with
  | fractionalSecond => DateValue.setMillisecond v segmentValue
  | _ => otherSet v part segmentValue
  end.

(** Modelled from the spec: the page operations of the segment mutator,
    [cycle(kind, +-pageStep(kind), {round: true})], for the kinds that have
    a page step. *)
Definition incrementPage (v : DateValue.DateTimeValue) (part : SegmentType)
  : option DateValue.DateTimeValue :=
  match PAGE_STEP part with
  | Some step => Some (addSegment v part step)
  | None => None
  end.

Definition decrementPage (v : DateValue.DateTimeValue) (part : SegmentType)
  : option DateValue.DateTimeValue :=
  match PAGE_STEP part with
  | Some step => Some (addSegment v part (- step))
  | None => None
  end.

(** Modelled from the spec: the single-step operations,
    [cycle(kind, +-1, ...)]. *)
Definition increment (v : DateValue.DateTimeValue) (part : SegmentType)
  : DateValue.DateTimeValue := addSegment v part 1.

Definition decrement (v : DateValue.DateTimeValue) (part : SegmentType)
  : DateValue.DateTimeValue := addSegment v part (-1).

(** *** The segment parser *)

(** One part of [Intl.DateTimeFormat.prototype.formatToParts]. *)
Record Part : Type := mkPart {
  partType : string;
  partValue : jsstring
}.

(** One segment of the field. *)
Record DateSegment : Type := mkDateSegment {
  type : SegmentType;
  text : jsstring;
  segValue : option Z;
  segMinValue : option Z;
  segMaxValue : option Z;
  isPlaceholder : bool;
  isEditable : bool
}.

(** The segment type a platform part type stands for; a part of any other
    type is literal text.  The platform's ['fractionalSecond'] is the
    millisecond field. *)
Definition segmentTypeOfPart (name : string) : SegmentType :=
  if String.eqb name "era" then era
  else if String.eqb name "year" then year
  else if String.eqb name "month" then month
  else if String.eqb name "day" then day
  else if String.eqb name "hour" then hour
  else if String.eqb name "minute" then minute
  else if String.eqb name "second" then second
  else if String.eqb name "fractionalSecond" then fractionalSecond
  else if String.eqb name "dayPeriod" then dayPeriod
  else if String.eqb name "timeZoneName" then timeZoneName
  else literal.

(** The [timeValue] array of the right-to-left handling, with
    ['fractionalSecond'] added. *)
Definition timeValue : list SegmentType := [hour; minute; second; fractionalSecond].

Definition isTimeSegment (s : DateSegment) : bool :=
  existsb (SegmentType_eqb (type s)) timeValue.

(** U+2066 LEFT-TO-RIGHT ISOLATE and U+2069 POP DIRECTIONAL ISOLATE. *)
Definition LRI : N := 8294%N.
Definition PDI : N := 8297%N.

Definition literalSegment (t : jsstring) : DateSegment :=
  {| type := literal; text := t; segValue := None; segMinValue := None;
     segMaxValue := None; isPlaceholder := false; isEditable := false |}.

(** The segments before the first that satisfies [p], and the rest. *)
Fixpoint break (p : DateSegment -> bool) (l : list DateSegment)
  : list DateSegment * list DateSegment :=
  match l with
  | [] => ([], [])
  | s :: r =>
      if p s then ([], l)
      else let '(before, rest) := break p r in (s :: before, rest)
  end.

(** Modelled from the spec: the run of segments from the first to the last
    time field is wrapped in directional isolation markers, added to the
    list as literals. *)
Definition wrapTimeRun (l : list DateSegment) : list DateSegment :=
  let '(before, fromFirst) := break isTimeSegment l in
  match fromFirst with
  | [] => l
  | _ =>
      let '(afterRev, runRev) := break isTimeSegment (rev fromFirst) in
      before ++ [literalSegment [LRI]] ++ rev runRev
             ++ [literalSegment [PDI]] ++ rev afterRev
  end.

(** The platform formatter, the text direction of a locale and the
    localized placeholder table. *)
Variable formatToParts :
  Utils.FieldOptions -> DateValue.DateTimeValue -> Locale -> list Part.
Variable isRTL : Locale -> bool.
Variable placeholderStrings : string -> Locale -> jsstring.

(** Modelled from the spec: one formatter part as a segment.  A part whose
    type is an editable field becomes an editable segment with the limits
    and the value of [getSegmentLimits]; in placeholder mode its text comes
    from the placeholder resolver.  Any other part becomes a literal that
    carries the raw text. *)
Definition segmentOfPart (placeholderMode : bool) (v : DateValue.DateTimeValue)
  (locale : Locale) (p : Part) : DateSegment :=
  let t := segmentTypeOfPart (partType p) in
  if EDITABLE_SEGMENTS t then
    let limits := getSegmentLimits v t in
    {| type := t;
       text :=
         if placeholderMode
         then Placeholders.getPlaceholder placeholderStrings (segmentTypeName t)
                (partValue p) locale
         else partValue p;
       segValue := value limits;
       segMinValue := minValue limits;
       segMaxValue := maxValue limits;
       isPlaceholder := placeholderMode;
       isEditable := true |}
  else literalSegment (partValue p).

(** Modelled from the spec: [processSegments], the segment parser
    [parse(value, formatOptions, locale)], whose body is not in the sources:
    the value is formatted, each part becomes a segment in order, and in
    a right-to-left locale the run of time segments is wrapped. *)
Definition processSegments (placeholderMode : bool) (v : DateValue.DateTimeValue)
  (formatOptions : Utils.FieldOptions) (locale : Locale) : list DateSegment :=
  let segments :=
    map (segmentOfPart placeholderMode v locale)
        (formatToParts formatOptions v locale) in
  if isRTL locale then wrapTimeRun segments else segments.

End Switches.

(** The segments of the millisecond kind in a segment list. *)
Definition millisecondSegments (l : list DateSegment) : list DateSegment :=
  filter (fun s => SegmentType_eqb (type s) fractionalSecond) l.

(** The parts a formatter reports as fractional seconds. *)
Definition fractionalSecondParts (l : list Part) : list Part :=
  filter (fun p => String.eqb (partType p) "fractionalSecond") l.

(** A platform formatter that honours [fractionalSecondDigits]: whenever
    the option is set it reports the fractional second, as one part. *)
Definition honoursFractionalSecondDigits
  (formatToParts :
     Utils.FieldOptions -> DateValue.DateTimeValue -> Locale -> list Part)
  : Prop :=
  forall opts v locale digits,
    Utils.fractionalSecondDigits opts = Some digits ->
    List.length (fractionalSecondParts (formatToParts opts v locale)) = 1%nat.

End DateFieldState.

(** ** Display names ([@react-aria/datepicker/src/useDisplayNames.ts]) *)

Module DisplayNames.

(** [type Field = Intl.DateTimeFormatPartTypes | 'millisecond'] *)
Inductive Field : Type :=
| day | dayPeriod | era | fractionalSecond | hour | literal | minute | month
| relatedYear | second | timeZoneName | unknown | weekday | year | yearName
| millisecond.

Definition Field_eqb (a b : Field) : bool :=
  match a, b with
  | day, day | dayPeriod, dayPeriod | era, era
  | fractionalSecond, fractionalSecond | hour, hour | literal, literal
  | minute, minute | month, month | relatedYear, relatedYear
  | second, second | timeZoneName, timeZoneName | unknown, unknown
  | weekday, weekday | year, year | yearName, yearName
  | millisecond, millisecond => true
  | _, _ => false
  end.

(** What the platform throws ([RangeError], [TypeError], ...) and what the
    bundled dictionary throws. *)
Inductive PlatformError : Type :=
| RangeError | TypeError | OtherError (message : string).

Inductive DictionaryError : Type :=
| MissingString (message : string).

Inductive Exception : Type :=
| FromPlatform (e : PlatformError)
| FromDictionary (e : DictionaryError).

(** The calls made to [Intl.DisplayNames]. *)
Inductive PlatformCall : Type :=
| Construct (locale : Locale)
| CallOf (field : Field).

(** A computation that may call the platform and may throw: the calls
    made, in order, and the exception thrown or the value returned. *)
Definition M (A : Type) : Type := (list PlatformCall * (Exception + A))%type.

Definition ret {A : Type} (a : A) : M A := ([], inr a).

Definition throw {A : Type} (e : Exception) : M A := ([], inl e).

Definition bind {A B : Type} (m : M A) (k : A -> M B) : M B :=
  match m with
  | (calls, inl e) => (calls, inl e)
  | (calls, inr a) => let '(calls', r) := k a in (calls ++ calls', r)
  end.

(** [try { body } catch { handler }] *)
Definition tryCatch {A : Type} (body : M A) (handler : Exception -> M A) : M A :=
  match body with
  | (calls, inl e) => let '(calls', r) := handler e in (calls ++ calls', r)
  | (calls, inr a) => (calls, inr a)
  end.

Notation "x <- m ;; k" := (bind m (fun x => k))
  (at level 61, m at next level, right associativity).

(** How a [try] block ends when it does not throw: by a [return], or by
    running to its end. *)
Inductive Completion (A : Type) : Type :=
| Returned (a : A)
| FellThrough.

Arguments Returned {A} a.
Arguments FellThrough {A}.

(** An [Intl.DisplayNames] instance: its [of] returns a string or
    [undefined], or throws. *)
Record IntlDisplayNames : Type := mkIntlDisplayNames {
  intlOf : Field -> PlatformError + option jsstring
}.

(** [interface DisplayNames] *)
Record DisplayNames : Type := mkDisplayNames {
  of_ : Field -> M (option jsstring)
}.

(** [class DisplayNamesPolyfill] *)
Record DisplayNamesPolyfill : Type := mkDisplayNamesPolyfill {
  locale : Locale;
  dictionary : Field -> Locale -> DictionaryError + jsstring
}.

(** [DisplayNamesPolyfill.of]:
    [this.dictionary.getStringForLocale(field, this.locale)] *)
Definition polyfillOf (this : DisplayNamesPolyfill) (field : Field)
  : M (option jsstring) :=
  match dictionary this field (locale this) with
  | inl e => throw (FromDictionary e)
  | inr s => ret (Some s)
  end.

(** A polyfill seen through the [DisplayNames] interface. *)
Definition asDisplayNames (p : DisplayNamesPolyfill) : DisplayNames :=
  {| of_ := polyfillOf p |}.

Section Hook.

(** [new Intl.DisplayNames(locale, {type: 'dateTimeField'})]: an instance,
    or an exception where the platform lacks the class or the type. *)
Variable newIntlDisplayNames : Locale -> PlatformError + IntlDisplayNames.

(** [useLocale()] and [useLocalizedStringDictionary(intlMessages, ...)]. *)
Variable currentLocale : Locale.
Variable getStringForLocale : Field -> Locale -> DictionaryError + jsstring.

Definition callConstruct (l : Locale) : M IntlDisplayNames :=
  match newIntlDisplayNames l with
  | inl e => ([Construct l], inl (FromPlatform e))
  | inr d => ([Construct l], inr d)
  end.

Definition callIntlOf (d : IntlDisplayNames) (field : Field) : M (option jsstring) :=
  match intlOf d field with
  | inl e => ([CallOf field], inl (FromPlatform e))
  | inr r => ([CallOf field], inr r)
  end.

(** The [of] of the wrapper object: [Intl.DisplayNames] for the standard
    fields, the polyfill for ['millisecond'] and after an exception. *)
Definition wrappedOf (intlDisplayNames : IntlDisplayNames)
  (polyfill : DisplayNamesPolyfill) (field : Field) : M (option jsstring) :=
  c <- tryCatch
         (if negb (Field_eqb field millisecond)
          then r <- callIntlOf intlDisplayNames field ;; ret (Returned r)
          else ret FellThrough)
         (fun _ => ret FellThrough) ;;
  match c with
  | Returned r => ret r
  | FellThrough => polyfillOf polyfill field
  end.

(** [useDisplayNames()], the body of its memoized function. *)
Definition useDisplayNames : M DisplayNames :=
  let polyfill := mkDisplayNamesPolyfill currentLocale getStringForLocale in
  tryCatch
    (intlDisplayNames <- callConstruct currentLocale ;;
     ret {| of_ := wrappedOf intlDisplayNames polyfill |})
    (fun _ => ret (asDisplayNames polyfill)).

End Hook.

(** Whether the platform throws on the way to a field's name: at the
    construction, or in [of]. *)
Definition platformThrows
  (newIntlDisplayNames : Locale -> PlatformError + IntlDisplayNames)
  (l : Locale) (field : Field) : bool :=
  match newIntlDisplayNames l with
  | inl _ => true
  | inr d =>
      match intlOf d field with
      | inl _ => true
      | inr _ => false
      end
  end.

End DisplayNames.

(** ** Sample platforms *)

Module Samples.

(** ASCII digits of a number below 100, and below 1000. *)
Definition digits2 (n : Z) : jsstring :=
  [Z.to_N (48 + n / 10); Z.to_N (48 + n mod 10)].

Definition digits3 (n : Z) : jsstring :=
  Z.to_N (48 + n / 100) :: digits2 (n mod 100).

(** The time parts a 24-hour formatter reports down to the second:
    [hh:mm:ss]. *)
Definition secondParts (v : DateValue.DateTimeValue) : list DateFieldState.Part :=
  let t := DateValue.timeOf v in
  [DateFieldState.mkPart "hour" (digits2 (DateValue.hour t));
   DateFieldState.mkPart "literal" [58%N];
   DateFieldState.mkPart "minute" (digits2 (DateValue.minute t));
   DateFieldState.mkPart "literal" [58%N];
   DateFieldState.mkPart "second" (digits2 (DateValue.second t))].

(** A formatter that honours [fractionalSecondDigits]: [hh:mm:ss.fff]. *)
Definition modernFormatter (opts : Utils.FieldOptions)
  (v : DateValue.DateTimeValue) (locale : Locale) : list DateFieldState.Part :=
  match Utils.fractionalSecondDigits opts with
  | Some _ =>
      secondParts v
      ++ [DateFieldState.mkPart "literal" [46%N];
          DateFieldState.mkPart "fractionalSecond"
            (digits3 (DateValue.getMillisecond v))]
  | None => secondParts v
  end.

(** A formatter of an older platform, which does not know
    [fractionalSecondDigits] and stops at the seconds. *)
Definition legacyFormatter (opts : Utils.FieldOptions)
  (v : DateValue.DateTimeValue) (locale : Locale) : list DateFieldState.Part :=
  secondParts v.

Definition leftToRight (locale : Locale) : bool := false.
Definition rightToLeft (locale : Locale) : bool := true.

Definition noStrings (field : string) (locale : Locale) : jsstring := [].

(** Switch cases that are not exercised: no limits, the value unchanged. *)
Definition noLimits (v : DateValue.DateTimeValue) (t : DateFieldState.SegmentType)
  : DateFieldState.SegmentLimits :=
  DateFieldState.mkSegmentLimits None None None.

Definition unchanged (v : DateValue.DateTimeValue) (t : DateFieldState.SegmentType)
  (amount : Z) : DateValue.DateTimeValue := v.

(** A platform without [Intl.DisplayNames], a platform whose
    [Intl.DisplayNames] rejects every field code, and one that names the
    standard fields. *)
Definition noDisplayNames (l : Locale)
  : DisplayNames.PlatformError + DisplayNames.IntlDisplayNames :=
  inl DisplayNames.TypeError.

Definition rejectingDisplayNames (l : Locale)
  : DisplayNames.PlatformError + DisplayNames.IntlDisplayNames :=
  inr (DisplayNames.mkIntlDisplayNames (fun _ => inl DisplayNames.RangeError)).

(** A platform whose [Intl.DisplayNames] names the hour, returns
    [undefined] for the weekday and rejects every other code. *)
Definition partialDisplayNames (l : Locale)
  : DisplayNames.PlatformError + DisplayNames.IntlDisplayNames :=
  inr (DisplayNames.mkIntlDisplayNames
         (fun field =>
            match field with
            | DisplayNames.hour => inr (Some [104%N; 111%N; 117%N; 114%N])
            | DisplayNames.weekday => inr None
            | _ => inl DisplayNames.RangeError
            end)).

(** A bundled dictionary without any string. *)
Definition emptyDictionary (field : DisplayNames.Field) (l : Locale)
  : DisplayNames.DictionaryError + jsstring :=
  inl (DisplayNames.MissingString "missing").

(** The label "ms" of the bundled dictionary, for every field. *)
Definition bundled (field : DisplayNames.Field) (l : Locale)
  : DisplayNames.DictionaryError + jsstring :=
  inr [109%N; 115%N].

End Samples.

(** * Properties *)

(** ** The format-options resolver *)

Lemma override_isSome {A : Type} (explicit dflt : option A) :
  Utils.isSome dflt = true -> Utils.isSome (Utils.override explicit dflt) = true.
Proof. destruct explicit; simpl; auto. Qed.

Lemma indexOf_keyOfGranularity (g : Granularity) :
  Utils.indexOf (Utils.keyOfGranularity g) Utils.keys
  = Utils.rank (Utils.keyOfGranularity g).
Proof. destruct g; reflexivity. Qed.

(** The fields of the resolved options, one granularity at a time. *)
Lemma getFormatOptions_includesField (explicit : Utils.FieldOptions)
  (g : Granularity) (k : Utils.FieldKey) :
  Utils.includesField (Utils.getFormatOptions explicit g) k
  = (Utils.rank k <=? Utils.rank (Utils.keyOfGranularity g)).
Proof.
  destruct explicit as [ey emo ed eh emi es ef].
  destruct g, k; cbv; try reflexivity;
    match goal with
    | |- context [match ?e with Some _ => _ | None => _ end] =>
        destruct e; reflexivity
    end.
Qed.

Lemma resolve_granularityName (g : Granularity) (explicit : option Utils.FieldOptions) :
  Utils.resolve (Utils.granularityName g) explicit
  = inr (Utils.getFormatOptions
           (match explicit with Some o => o | None => Utils.noOptions end) g).
Proof. destruct g; reflexivity. Qed.

(** C1: for each of the five granularities and every explicit-options
    override, the resolver succeeds, and its options include a field of the
    fixed ordering year, month, day, hour, minute, second, millisecond
    exactly when the field is at or above the granularity in that ordering:
    all of those fields and no field below it. *)
Theorem resolve_includes_exactly_fields_up_to_granularity
  (g : Granularity) (explicit : option Utils.FieldOptions) :
  exists opts,
    Utils.resolve (Utils.granularityName g) explicit = inr opts /\
    forall k : Utils.FieldKey,
      Utils.includesField opts k
      = (Utils.rank k <=? Utils.rank (Utils.keyOfGranularity g)).
Proof.
  eexists. split.
  - apply resolve_granularityName.
  - intro k. apply getFormatOptions_includesField.
Qed.

(** The plan's addition does not look at the options it is added to. *)
Lemma addFractionalSecondDigits_millisecond (opts : Utils.FieldOptions) :
  Utils.fractionalSecondDigits
    (Utils.addFractionalSecondDigits g_millisecond opts)
  = Some 3.
Proof. reflexivity. Qed.

(** C3: at millisecond granularity the resolved options carry a
    fractional-digit count of exactly 3, the count of the default table,
    whatever the explicit options are, also when they ask for 1 or 2
    digits; the resolver takes no locale. *)
Theorem resolve_millisecond_fractionalSecondDigits_3
  (explicit : option Utils.FieldOptions) :
  exists opts,
    Utils.resolve "millisecond" explicit = inr opts /\
    Utils.fractionalSecondDigits opts = Some 3 /\
    Utils.fractionalSecondDigits opts
    = Utils.fractionalSecondDigits Utils.DEFAULT_FIELD_OPTIONS /\
    Utils.fractionalSecondDigits opts <> Some 1 /\
    Utils.fractionalSecondDigits opts <> Some 2.
Proof.
  eexists. split; [reflexivity|].
  unfold Utils.getFormatOptions.
  rewrite addFractionalSecondDigits_millisecond.
  repeat split; discriminate.
Qed.

(** An identifier outside the five granularities is refused. *)
Example resolve_week :
  Utils.resolve "week" None = inl Utils.InvalidGranularity.
Proof. reflexivity. Qed.

(** ** The page steps *)

(** C5: the page step of each field kind is the one of the fixed table,
    year 5, month 2, day 7, hour 2, minute 15, second 15, millisecond 100,
    and the page increment and decrement of a kind step by it. *)
Theorem PAGE_STEP_table :
  Forall (fun kn => DateFieldState.PAGE_STEP (fst kn) = Some (snd kn))
    [(DateFieldState.year, 5); (DateFieldState.month, 2);
     (DateFieldState.day, 7); (DateFieldState.hour, 2);
     (DateFieldState.minute, 15); (DateFieldState.second, 15);
     (DateFieldState.fractionalSecond, 100)] /\
  forall otherAdd v part,
    DateFieldState.incrementPage otherAdd v part
    = option_map (DateFieldState.addSegment otherAdd v part)
        (DateFieldState.PAGE_STEP part) /\
    DateFieldState.decrementPage otherAdd v part
    = option_map (fun step => DateFieldState.addSegment otherAdd v part (- step))
        (DateFieldState.PAGE_STEP part).
Proof.
  split.
  - repeat constructor.
  - intros otherAdd v part.
    unfold DateFieldState.incrementPage, DateFieldState.decrementPage.
    destruct (DateFieldState.PAGE_STEP part); split; reflexivity.
Qed.

(** ** Placeholders *)

(** C7: in every locale the placeholder of the millisecond field (segment
    type ['fractionalSecond']) is three dash characters, of length 3, and
    the placeholder of the minute field is two, of length 2. *)
Theorem getPlaceholder_lengths
  (table : string -> Locale -> jsstring) (value : jsstring) (locale : Locale) :
  Placeholders.getPlaceholder table
    (DateFieldState.segmentTypeName DateFieldState.fractionalSecond) value locale
  = [EN_DASH; EN_DASH; EN_DASH] /\
  List.length (Placeholders.getPlaceholder table "fractionalSecond" value locale) = 3%nat /\
  Placeholders.getPlaceholder table
    (DateFieldState.segmentTypeName DateFieldState.minute) value locale
  = [EN_DASH; EN_DASH] /\
  List.length (Placeholders.getPlaceholder table "minute" value locale) = 2%nat.
Proof. repeat split. Qed.

(** ** The segment parser *)

Lemma segmentTypeOfPart_fractionalSecond (name : string) :
  DateFieldState.SegmentType_eqb (DateFieldState.segmentTypeOfPart name)
    DateFieldState.fractionalSecond
  = String.eqb name "fractionalSecond".
Proof.
  unfold DateFieldState.segmentTypeOfPart.
  repeat match goal with
         | |- context [if String.eqb name ?k then _ else _] =>
             destruct (String.eqb_spec name k); [subst name; reflexivity|]
         end.
  reflexivity.
Qed.

Section Parser.

Variable otherLimits :
  DateValue.DateTimeValue -> DateFieldState.SegmentType -> DateFieldState.SegmentLimits.
Variable formatToParts :
  Utils.FieldOptions -> DateValue.DateTimeValue -> Locale -> list DateFieldState.Part.
Variable isRTL : Locale -> bool.
Variable placeholderStrings : string -> Locale -> jsstring.

Let segmentOf := DateFieldState.segmentOfPart otherLimits placeholderStrings.
Let parse :=
  DateFieldState.processSegments otherLimits formatToParts isRTL placeholderStrings.

Lemma segmentOfPart_type (pm : bool) (v : DateValue.DateTimeValue) (l : Locale)
  (p : DateFieldState.Part) :
  DateFieldState.SegmentType_eqb (DateFieldState.type (segmentOf pm v l p))
    DateFieldState.fractionalSecond
  = String.eqb (DateFieldState.partType p) "fractionalSecond".
Proof.
  rewrite <- segmentTypeOfPart_fractionalSecond.
  unfold segmentOf, DateFieldState.segmentOfPart.
  destruct (DateFieldState.segmentTypeOfPart (DateFieldState.partType p));
    reflexivity.
Qed.

(** The millisecond segments of the mapped parts are the segments of the
    fractional-second parts. *)
Lemma millisecondSegments_map (pm : bool) (v : DateValue.DateTimeValue)
  (l : Locale) (parts : list DateFieldState.Part) :
  DateFieldState.millisecondSegments (map (segmentOf pm v l) parts)
  = map (segmentOf pm v l) (DateFieldState.fractionalSecondParts parts).
Proof.
  induction parts as [|p parts IH]; [reflexivity|].
  simpl. rewrite segmentOfPart_type.
  destruct (String.eqb (DateFieldState.partType p) "fractionalSecond");
    simpl; now rewrite IH.
Qed.

Lemma break_app (p : DateFieldState.DateSegment -> bool)
  (l : list DateFieldState.DateSegment) :
  l = fst (DateFieldState.break p l) ++ snd (DateFieldState.break p l).
Proof.
  induction l as [|s r IH]; [reflexivity|].
  simpl. destruct (p s); [reflexivity|].
  destruct (DateFieldState.break p r) as [before rest].
  simpl in *. now rewrite IH at 1.
Qed.

Lemma millisecondSegments_app (a b : list DateFieldState.DateSegment) :
  DateFieldState.millisecondSegments (a ++ b)
  = DateFieldState.millisecondSegments a ++ DateFieldState.millisecondSegments b.
Proof. apply filter_app. Qed.

Lemma millisecondSegments_rev (a : list DateFieldState.DateSegment) :
  DateFieldState.millisecondSegments (rev a)
  = rev (DateFieldState.millisecondSegments a).
Proof.
  induction a as [|s a IH]; [reflexivity|].
  simpl rev. rewrite millisecondSegments_app, IH.
  unfold DateFieldState.millisecondSegments. simpl.
  destruct (DateFieldState.SegmentType_eqb (DateFieldState.type s)
              DateFieldState.fractionalSecond); simpl;
    [reflexivity | now rewrite app_nil_r].
Qed.

(** The isolation markers are literals: wrapping the time run neither adds
    nor removes a millisecond segment. *)
Lemma millisecondSegments_wrapTimeRun (l : list DateFieldState.DateSegment) :
  DateFieldState.millisecondSegments (DateFieldState.wrapTimeRun l)
  = DateFieldState.millisecondSegments l.
Proof.
  unfold DateFieldState.wrapTimeRun.
  pose proof (break_app DateFieldState.isTimeSegment l) as Hl.
  destruct (DateFieldState.break DateFieldState.isTimeSegment l)
    as [before fromFirst].
  simpl in Hl.
  destruct fromFirst as [|x r]; [reflexivity|].
  pose proof (break_app DateFieldState.isTimeSegment (rev (x :: r))) as Hr.
  destruct (DateFieldState.break DateFieldState.isTimeSegment (rev (x :: r)))
    as [afterRev runRev].
  simpl fst in Hr; simpl snd in Hr.
  apply (f_equal (@rev _)) in Hr.
  rewrite rev_involutive, rev_app_distr in Hr.
  rewrite Hl, Hr.
  repeat rewrite millisecondSegments_app.
  reflexivity.
Qed.

(** The parser keeps one millisecond segment per fractional-second part of
    the formatter, in order. *)
Lemma millisecondSegments_processSegments (pm : bool)
  (v : DateValue.DateTimeValue) (opts : Utils.FieldOptions) (l : Locale) :
  DateFieldState.millisecondSegments (parse pm v opts l)
  = map (segmentOf pm v l)
      (DateFieldState.fractionalSecondParts (formatToParts opts v l)).
Proof.
  unfold parse, DateFieldState.processSegments.
  destruct (isRTL l).
  - rewrite millisecondSegments_wrapTimeRun. apply millisecondSegments_map.
  - apply millisecondSegments_map.
Qed.

Lemma fractionalSecondParts_partType (parts : list DateFieldState.Part)
  (p : DateFieldState.Part) :
  In p (DateFieldState.fractionalSecondParts parts) ->
  DateFieldState.partType p = "fractionalSecond"%string.
Proof.
  unfold DateFieldState.fractionalSecondParts. intro H.
  apply filter_In in H. now apply String.eqb_eq.
Qed.

(** The segment of a fractional-second part: the millisecond kind, editable,
    with the limits of [getSegmentLimits]. *)
Lemma segmentOfPart_fractionalSecond (pm : bool) (v : DateValue.DateTimeValue)
  (l : Locale) (p : DateFieldState.Part) :
  DateFieldState.partType p = "fractionalSecond"%string ->
  let s := segmentOf pm v l p in
  DateFieldState.type s = DateFieldState.fractionalSecond /\
  DateFieldState.segMinValue s = Some 0 /\
  DateFieldState.segMaxValue s = Some 999 /\
  DateFieldState.segValue s = Some (DateValue.getMillisecond v) /\
  DateFieldState.isEditable s = true.
Proof.
  intro H. unfold segmentOf, DateFieldState.segmentOfPart.
  rewrite H. simpl. repeat split.
Qed.

End Parser.

(** One fractional-second part, one millisecond segment: where the
    platform formatter reports the fractional second as a single part, the
    segment list holds exactly one segment of the millisecond kind; it is
    editable, its bounds are 0 and 999 and its value is the millisecond of
    the value.  This holds in both text directions and in placeholder
    mode. *)
Theorem processSegments_one_millisecond_segment
  (otherLimits :
     DateValue.DateTimeValue -> DateFieldState.SegmentType ->
     DateFieldState.SegmentLimits)
  (formatToParts :
     Utils.FieldOptions -> DateValue.DateTimeValue -> Locale ->
     list DateFieldState.Part)
  (isRTL : Locale -> bool) (placeholderStrings : string -> Locale -> jsstring)
  (placeholderMode : bool) (v : DateValue.DateTimeValue)
  (explicit : Utils.FieldOptions) (locale : Locale) :
  List.length
    (DateFieldState.fractionalSecondParts
       (formatToParts (Utils.getFormatOptions explicit g_millisecond) v locale))
  = 1%nat ->
  exists s,
    DateFieldState.millisecondSegments
      (DateFieldState.processSegments otherLimits formatToParts isRTL
         placeholderStrings placeholderMode v
         (Utils.getFormatOptions explicit g_millisecond) locale)
    = [s] /\
    DateFieldState.type s = DateFieldState.fractionalSecond /\
    DateFieldState.segMinValue s = Some 0 /\
    DateFieldState.segMaxValue s = Some 999 /\
    DateFieldState.segValue s = Some (DateValue.getMillisecond v) /\
    DateFieldState.isEditable s = true.
Proof.
  intro Hone.
  rewrite millisecondSegments_processSegments.
  remember (DateFieldState.fractionalSecondParts
              (formatToParts (Utils.getFormatOptions explicit g_millisecond)
                 v locale)) as parts eqn:Hparts.
  destruct parts as [|p [|q rest]]; try discriminate Hone.
  eexists. split; [reflexivity|].
  apply segmentOfPart_fractionalSecond.
  apply (fractionalSecondParts_partType
           (formatToParts (Utils.getFormatOptions explicit g_millisecond)
              v locale)).
  rewrite <- Hparts. now left.
Qed.

Lemma processSegments_one_millisecond_segment_witness :
  exists s,
    DateFieldState.millisecondSegments
      (DateFieldState.processSegments Samples.noLimits Samples.modernFormatter
         Samples.rightToLeft Samples.noStrings false
         (DateValue.newTime 12 30 45 (Some 7))
         (Utils.getFormatOptions Utils.noOptions g_millisecond) "he-IL"%string)
    = [s] /\
    DateFieldState.type s = DateFieldState.fractionalSecond /\
    DateFieldState.segMinValue s = Some 0 /\
    DateFieldState.segMaxValue s = Some 999 /\
    DateFieldState.segValue s
    = Some (DateValue.getMillisecond (DateValue.newTime 12 30 45 (Some 7))) /\
    DateFieldState.isEditable s = true.
Proof.
  apply (processSegments_one_millisecond_segment Samples.noLimits
           Samples.modernFormatter Samples.rightToLeft Samples.noStrings false
           (DateValue.newTime 12 30 45 (Some 7)) Utils.noOptions "he-IL"%string).
  reflexivity.
Defined.

(** On a platform whose formatter does not report fractional seconds the
    segment list has no millisecond segment: the field degrades to the
    seconds. *)
Lemma processSegments_legacyFormatter (v : DateValue.DateTimeValue)
  (explicit : Utils.FieldOptions) (locale : Locale) (isRTL : Locale -> bool)
  (placeholderMode : bool) :
  DateFieldState.millisecondSegments
    (DateFieldState.processSegments Samples.noLimits Samples.legacyFormatter
       isRTL Samples.noStrings placeholderMode v
       (Utils.getFormatOptions explicit g_millisecond) locale)
  = [].
Proof. now rewrite millisecondSegments_processSegments. Qed.

Lemma modernFormatter_honours :
  DateFieldState.honoursFractionalSecondDigits Samples.modernFormatter.
Proof.
  intros opts v locale digits Hdigits.
  unfold Samples.modernFormatter. rewrite Hdigits. reflexivity.
Qed.

(** C2, as stated, fails on a platform whose formatter does not report
    fractional seconds: at millisecond granularity the segment list of
    12:30:45.007 then has no millisecond segment at all, so not exactly
    one. *)
Lemma processSegments_legacy_no_millisecond_segment :
  DateFieldState.millisecondSegments
    (DateFieldState.processSegments Samples.noLimits Samples.legacyFormatter
       Samples.leftToRight Samples.noStrings false
       (DateValue.newTime 12 30 45 (Some 7))
       (Utils.getFormatOptions Utils.noOptions g_millisecond) "en-US"%string)
  = [] /\
  List.length
    (DateFieldState.millisecondSegments
       (DateFieldState.processSegments Samples.noLimits Samples.legacyFormatter
          Samples.leftToRight Samples.noStrings false
          (DateValue.newTime 12 30 45 (Some 7))
          (Utils.getFormatOptions Utils.noOptions g_millisecond)
          "en-US"%string))
  <> 1%nat.
Proof. split; [reflexivity | discriminate]. Qed.

(** C2, amended: on a platform whose formatter honours the fractional-digit
    count, for every value, locale and explicit options, the segment list
    at millisecond granularity holds exactly one segment of the millisecond
    kind; it is editable, its bounds are 0 and 999 and its value is the
    millisecond of the value.  The resolved options carry the digit count
    because the granularity is the millisecond. *)
Theorem processSegments_millisecond_granularity_one_segment
  (otherLimits :
     DateValue.DateTimeValue -> DateFieldState.SegmentType ->
     DateFieldState.SegmentLimits)
  (formatToParts :
     Utils.FieldOptions -> DateValue.DateTimeValue -> Locale ->
     list DateFieldState.Part)
  (isRTL : Locale -> bool) (placeholderStrings : string -> Locale -> jsstring)
  (placeholderMode : bool) (v : DateValue.DateTimeValue)
  (explicit : option Utils.FieldOptions) (locale : Locale) :
  DateFieldState.honoursFractionalSecondDigits formatToParts ->
  exists opts s,
    Utils.resolve "millisecond" explicit = inr opts /\
    DateFieldState.millisecondSegments
      (DateFieldState.processSegments otherLimits formatToParts isRTL
         placeholderStrings placeholderMode v opts locale)
    = [s] /\
    DateFieldState.type s = DateFieldState.fractionalSecond /\
    DateFieldState.segMinValue s = Some 0 /\
    DateFieldState.segMaxValue s = Some 999 /\
    DateFieldState.segValue s = Some (DateValue.getMillisecond v) /\
    DateFieldState.isEditable s = true.
Proof.
  intro Hplatform.
  set (fieldOptions :=
         match explicit with Some o => o | None => Utils.noOptions end).
  destruct (processSegments_one_millisecond_segment otherLimits formatToParts
              isRTL placeholderStrings placeholderMode v fieldOptions locale)
    as [s Hs].
  - apply (Hplatform _ v locale 3).
    unfold Utils.getFormatOptions.
    apply addFractionalSecondDigits_millisecond.
  - exists (Utils.getFormatOptions fieldOptions g_millisecond), s.
    split; [reflexivity | exact Hs].
Qed.

Lemma processSegments_millisecond_granularity_one_segment_witness :
  exists opts s,
    Utils.resolve "millisecond" None = inr opts /\
    DateFieldState.millisecondSegments
      (DateFieldState.processSegments Samples.noLimits Samples.modernFormatter
         Samples.rightToLeft Samples.noStrings false
         (DateValue.newTime 12 30 45 (Some 7)) opts "he-IL"%string)
    = [s] /\
    DateFieldState.type s = DateFieldState.fractionalSecond /\
    DateFieldState.segMinValue s = Some 0 /\
    DateFieldState.segMaxValue s = Some 999 /\
    DateFieldState.segValue s
    = Some (DateValue.getMillisecond (DateValue.newTime 12 30 45 (Some 7))) /\
    DateFieldState.isEditable s = true.
Proof.
  apply (processSegments_millisecond_granularity_one_segment Samples.noLimits
           Samples.modernFormatter Samples.rightToLeft Samples.noStrings false
           (DateValue.newTime 12 30 45 (Some 7)) None "he-IL"%string).
  intros opts v locale digits Hdigits.
  unfold Samples.modernFormatter. rewrite Hdigits. reflexivity.
Defined.

(** The end-to-end example: 12:30:45 without a millisecond, left to right. *)
Example processSegments_12_30_45 :
  map (fun s => (DateFieldState.type s, DateFieldState.segValue s))
    (DateFieldState.processSegments Samples.noLimits Samples.modernFormatter
       Samples.leftToRight Samples.noStrings false
       (DateValue.newTime 12 30 45 None)
       (Utils.getFormatOptions Utils.noOptions g_millisecond) "en-US"%string)
  = [(DateFieldState.hour, None); (DateFieldState.literal, None);
     (DateFieldState.minute, None); (DateFieldState.literal, None);
     (DateFieldState.second, None); (DateFieldState.literal, None);
     (DateFieldState.fractionalSecond, Some 0)].
Proof. reflexivity. Qed.

(** ** Values built without a millisecond *)

Lemma getSegmentLimits_fractionalSecond
  (otherLimits :
     DateValue.DateTimeValue -> DateFieldState.SegmentType ->
     DateFieldState.SegmentLimits)
  (v : DateValue.DateTimeValue) :
  DateFieldState.getSegmentLimits otherLimits v DateFieldState.fractionalSecond
  = DateFieldState.mkSegmentLimits
      (Some (DateValue.getMillisecond v)) (Some 0) (Some 999).
Proof. reflexivity. Qed.

Lemma millisecondSegments_values
  (otherLimits :
     DateValue.DateTimeValue -> DateFieldState.SegmentType ->
     DateFieldState.SegmentLimits)
  (formatToParts :
     Utils.FieldOptions -> DateValue.DateTimeValue -> Locale ->
     list DateFieldState.Part)
  (isRTL : Locale -> bool) (placeholderStrings : string -> Locale -> jsstring)
  (placeholderMode : bool) (v : DateValue.DateTimeValue)
  (opts : Utils.FieldOptions) (locale : Locale) :
  Forall
    (fun s => DateFieldState.segValue s = Some (DateValue.getMillisecond v))
    (DateFieldState.millisecondSegments
       (DateFieldState.processSegments otherLimits formatToParts isRTL
          placeholderStrings placeholderMode v opts locale)).
Proof.
  rewrite millisecondSegments_processSegments.
  apply Forall_forall. intros s Hs.
  apply in_map_iff in Hs. destruct Hs as [p [<- Hp]].
  apply fractionalSecondParts_partType in Hp.
  now apply segmentOfPart_fractionalSecond.
Qed.

(** A value built without a millisecond, of any of the three shapes,
    reads 0 as its millisecond: the limits of the millisecond segment are
    defined, with value 0 and bounds 0 and 999, and the parser gives every
    fractional-second part the formatter reports a millisecond segment of
    value 0, dropping none. *)
Theorem millisecond_defaults_to_0
  (otherLimits :
     DateValue.DateTimeValue -> DateFieldState.SegmentType ->
     DateFieldState.SegmentLimits)
  (formatToParts :
     Utils.FieldOptions -> DateValue.DateTimeValue -> Locale ->
     list DateFieldState.Part)
  (isRTL : Locale -> bool) (placeholderStrings : string -> Locale -> jsstring)
  (placeholderMode : bool) (opts : Utils.FieldOptions) (locale : Locale)
  (d : DateValue.DateFields) (timeZone : string) (offset h m s : Z) :
  Forall
    (fun v =>
       DateValue.getMillisecond v = 0 /\
       DateFieldState.getSegmentLimits otherLimits v DateFieldState.fractionalSecond
       = DateFieldState.mkSegmentLimits (Some 0) (Some 0) (Some 999) /\
       Forall (fun seg => DateFieldState.segValue seg = Some 0)
         (DateFieldState.millisecondSegments
            (DateFieldState.processSegments otherLimits formatToParts isRTL
               placeholderStrings placeholderMode v opts locale)) /\
       List.length
         (DateFieldState.millisecondSegments
            (DateFieldState.processSegments otherLimits formatToParts isRTL
               placeholderStrings placeholderMode v opts locale))
       = List.length
           (DateFieldState.fractionalSecondParts (formatToParts opts v locale)))
    (DateValue.builtWithoutMillisecond d timeZone offset h m s).
Proof.
  assert (Hall : forall v, DateValue.getMillisecond v = 0 ->
    DateValue.getMillisecond v = 0 /\
    DateFieldState.getSegmentLimits otherLimits v DateFieldState.fractionalSecond
    = DateFieldState.mkSegmentLimits (Some 0) (Some 0) (Some 999) /\
    Forall (fun seg => DateFieldState.segValue seg = Some 0)
      (DateFieldState.millisecondSegments
         (DateFieldState.processSegments otherLimits formatToParts isRTL
            placeholderStrings placeholderMode v opts locale)) /\
    List.length
      (DateFieldState.millisecondSegments
         (DateFieldState.processSegments otherLimits formatToParts isRTL
            placeholderStrings placeholderMode v opts locale))
    = List.length
        (DateFieldState.fractionalSecondParts (formatToParts opts v locale))).
  { intros v Hv. split; [exact Hv|]. split; [|split].
    - rewrite getSegmentLimits_fractionalSecond. now rewrite Hv.
    - rewrite <- Hv. apply millisecondSegments_values.
    - rewrite millisecondSegments_processSegments. apply length_map. }
  unfold DateValue.builtWithoutMillisecond.
  repeat constructor; apply Hall; reflexivity.
Qed.




(** ** Cycling with a page step *)

(** With rounding, a cycled field that starts at 0 lands on a multiple of
    the step inside the range. *)
Lemma cycleValue_round_multiple (value step max : Z) :
  0 < step -> 0 <= value <= max ->
  let r := DateValue.cycleValue value step 0 max true in
  r mod step = 0 /\ 0 <= r <= max.
Proof.
  intros Hstep Hvalue. unfold DateValue.cycleValue, DateValue.ceilDiv.
  rewrite (Z.sgn_pos step), (Z.abs_eq step) by lia.
  destruct (Z.ltb_spec (value + 1) 0) as [Hneg|_]; [lia|].
  destruct (Z.ltb_spec 0 step) as [_|Hno]; [|lia].
  assert (Hq : (- (value + 1)) / step < 0)
    by (apply Z.div_lt_upper_bound; lia).
  destruct (Z.ltb_spec max (- (- (value + 1) / step) * step)) as [Hover|Hin].
  - split; [now apply Z.mod_0_l; lia | lia].
  - split; [apply Z.mod_mul; lia | nia].
Qed.

(** The single step and the page step of the end-to-end example: from 0 to
    1, and from 1 to 100. *)
Example increment_millisecond_0 :
  DateFieldState.increment Samples.unchanged (DateValue.newTime 12 30 45 None)
    DateFieldState.fractionalSecond
  = DateValue.newTime 12 30 45 (Some 1).
Proof. reflexivity. Qed.

Example incrementPage_millisecond_1 :
  DateFieldState.incrementPage Samples.unchanged
    (DateValue.newTime 12 30 45 (Some 1)) DateFieldState.fractionalSecond
  = Some (DateValue.newTime 12 30 45 (Some 100)).
Proof. reflexivity. Qed.

(** C4, as stated, fails at 12:30:45.950: the page increment of the
    millisecond gives 12:30:45.000, so the millisecond is not 50 and the
    second is not carried into; no result can both be a multiple of 100
    and equal 50. *)
Lemma incrementPage_950_no_carry :
  DateFieldState.incrementPage Samples.unchanged
    (DateValue.newTime 12 30 45 (Some 950)) DateFieldState.fractionalSecond
  = Some (DateValue.newTime 12 30 45 (Some 0)) /\
  ~ (exists r,
       DateFieldState.incrementPage Samples.unchanged
         (DateValue.newTime 12 30 45 (Some 950)) DateFieldState.fractionalSecond
       = Some r /\
       DateValue.getMillisecond r mod 100 = 0 /\
       DateValue.getMillisecond r = 50 /\
       DateValue.getSecond r = 46).
Proof.
  split; [reflexivity|].
  intros [r [Hr [_ [H50 _]]]].
  inversion Hr; subst r. discriminate H50.
Qed.

(** C4, amended: the page increment of the millisecond of a value whose
    millisecond is 950 gives a value whose millisecond is a multiple of
    100: the field wraps within its own range, to 0, and the second, the
    minute and the hour are unchanged. *)
Theorem incrementPage_950_multiple_of_100
  (otherAdd :
     DateValue.DateTimeValue -> DateFieldState.SegmentType -> Z ->
     DateValue.DateTimeValue)
  (v : DateValue.DateTimeValue) :
  DateValue.getMillisecond v = 950 ->
  exists r,
    DateFieldState.incrementPage otherAdd v DateFieldState.fractionalSecond
    = Some r /\
    DateValue.getMillisecond r mod 100 = 0 /\
    DateValue.getMillisecond r = 0 /\
    DateValue.getSecond r = DateValue.getSecond v /\
    DateValue.minute (DateValue.timeOf r) = DateValue.minute (DateValue.timeOf v) /\
    DateValue.hour (DateValue.timeOf r) = DateValue.hour (DateValue.timeOf v).
Proof.
  intro Hms. eexists. split; [reflexivity|].
  unfold DateValue.getMillisecond, DateValue.getSecond in *.
  destruct v as [t | d t | d t z o]; simpl in *; rewrite Hms;
    repeat split; reflexivity.
Qed.

Lemma incrementPage_950_multiple_of_100_witness :
  exists r,
    DateFieldState.incrementPage Samples.unchanged
      (DateValue.newTime 12 30 45 (Some 950)) DateFieldState.fractionalSecond
    = Some r /\
    DateValue.getMillisecond r mod 100 = 0 /\
    DateValue.getMillisecond r = 0 /\
    DateValue.getSecond r = 45 /\
    DateValue.minute (DateValue.timeOf r) = 30 /\
    DateValue.hour (DateValue.timeOf r) = 12.
Proof.
  apply (incrementPage_950_multiple_of_100 Samples.unchanged
           (DateValue.newTime 12 30 45 (Some 950))).
  reflexivity.
Defined.

(** Every page increment of the millisecond lands on a multiple of 100
    within 0 .. 999. *)
Lemma incrementPage_millisecond_multiple
  (otherAdd :
     DateValue.DateTimeValue -> DateFieldState.SegmentType -> Z ->
     DateValue.DateTimeValue)
  (v : DateValue.DateTimeValue) :
  0 <= DateValue.getMillisecond v <= 999 ->
  exists r,
    DateFieldState.incrementPage otherAdd v DateFieldState.fractionalSecond
    = Some r /\
    DateValue.getMillisecond r mod 100 = 0 /\
    0 <= DateValue.getMillisecond r <= 999.
Proof.
  intro Hms. eexists. split; [reflexivity|].
  pose proof (cycleValue_round_multiple (DateValue.getMillisecond v) 100 999)
    as H.
  destruct v as [t | d t | d t z o]; apply H; try lia; exact Hms.
Qed.

(** ** Display names *)

Section DisplayNamesFacts.

Variable newIntlDisplayNames :
  Locale -> DisplayNames.PlatformError + DisplayNames.IntlDisplayNames.
Variable currentLocale : Locale.
Variable getStringForLocale :
  DisplayNames.Field -> Locale -> DisplayNames.DictionaryError + jsstring.

Let polyfill :=
  DisplayNames.mkDisplayNamesPolyfill currentLocale getStringForLocale.

(** The hook never throws: it calls the constructor once and returns the
    wrapper, or the polyfill when the constructor throws. *)
Lemma useDisplayNames_returns :
  DisplayNames.useDisplayNames newIntlDisplayNames currentLocale getStringForLocale
  = ([DisplayNames.Construct currentLocale],
     inr match newIntlDisplayNames currentLocale with
         | inl _ => DisplayNames.asDisplayNames polyfill
         | inr d => DisplayNames.mkDisplayNames (DisplayNames.wrappedOf d polyfill)
         end).
Proof.
  unfold DisplayNames.useDisplayNames, DisplayNames.callConstruct.
  destruct (newIntlDisplayNames currentLocale); reflexivity.
Qed.

(** The polyfill makes no platform call, and what it throws comes from the
    dictionary. *)
Lemma polyfillOf_result (field : DisplayNames.Field) :
  DisplayNames.polyfillOf polyfill field
  = ([], match getStringForLocale field currentLocale with
         | inl e => inl (DisplayNames.FromDictionary e)
         | inr s => inr (Some s)
         end).
Proof.
  unfold DisplayNames.polyfillOf. simpl.
  destruct (getStringForLocale field currentLocale); reflexivity.
Qed.

(** The wrapper on ['millisecond']: the guard skips [Intl.DisplayNames]. *)
Lemma wrappedOf_millisecond (d : DisplayNames.IntlDisplayNames) :
  DisplayNames.wrappedOf d polyfill DisplayNames.millisecond
  = DisplayNames.polyfillOf polyfill DisplayNames.millisecond.
Proof.
  unfold DisplayNames.wrappedOf. simpl.
  destruct (DisplayNames.polyfillOf polyfill DisplayNames.millisecond)
    as [calls r].
  reflexivity.
Qed.

(** The wrapper on a standard field: one call of [Intl.DisplayNames.of],
    whose result is returned, and the polyfill after an exception. *)
Lemma wrappedOf_standard (d : DisplayNames.IntlDisplayNames)
  (field : DisplayNames.Field) :
  field <> DisplayNames.millisecond ->
  DisplayNames.wrappedOf d polyfill field
  = match DisplayNames.intlOf d field with
    | inr r => ([DisplayNames.CallOf field], inr r)
    | inl _ =>
        (DisplayNames.CallOf field :: fst (DisplayNames.polyfillOf polyfill field),
         snd (DisplayNames.polyfillOf polyfill field))
    end.
Proof.
  intro Hfield. unfold DisplayNames.wrappedOf, DisplayNames.callIntlOf.
  assert (Hguard : DisplayNames.Field_eqb field DisplayNames.millisecond = false)
    by (destruct field; try reflexivity; now elim Hfield).
  rewrite Hguard. simpl.
  destruct (DisplayNames.intlOf d field) as [e|r]; simpl.
  - destruct (DisplayNames.polyfillOf polyfill field) as [calls r].
    reflexivity.
  - reflexivity.
Qed.

Lemma Field_eq_dec (a b : DisplayNames.Field) : {a = b} + {a <> b}.
Proof. decide equality. Defined.


End DisplayNamesFacts.

(** C8: whatever the platform does (no [Intl.DisplayNames], one that
    rejects the field, one that works), when the bundled dictionary has a
    string for ['millisecond'] in the locale, the lookup the hook returns
    resolves ['millisecond'] to that string. *)
Theorem useDisplayNames_millisecond_label
  (newIntlDisplayNames :
     Locale -> DisplayNames.PlatformError + DisplayNames.IntlDisplayNames)
  (currentLocale : Locale)
  (getStringForLocale :
     DisplayNames.Field -> Locale -> DisplayNames.DictionaryError + jsstring)
  (label : jsstring) :
  getStringForLocale DisplayNames.millisecond currentLocale = inr label ->
  exists calls displayNames,
    DisplayNames.useDisplayNames newIntlDisplayNames currentLocale
      getStringForLocale
    = (calls, inr displayNames) /\
    snd (DisplayNames.of_ displayNames DisplayNames.millisecond)
    = inr (Some label).
Proof.
  intro Hlabel. rewrite useDisplayNames_returns.
  do 2 eexists. split; [reflexivity|].
  destruct (newIntlDisplayNames currentLocale) as [e|d]; simpl.
  - rewrite polyfillOf_result, Hlabel. reflexivity.
  - rewrite wrappedOf_millisecond, polyfillOf_result, Hlabel. reflexivity.
Qed.

Lemma useDisplayNames_millisecond_label_witness :
  exists calls displayNames,
    DisplayNames.useDisplayNames Samples.rejectingDisplayNames "fr-FR"%string
      Samples.bundled
    = (calls, inr displayNames) /\
    snd (DisplayNames.of_ displayNames DisplayNames.millisecond)
    = inr (Some [109%N; 115%N]).
Proof.
  apply (useDisplayNames_millisecond_label Samples.rejectingDisplayNames
           "fr-FR"%string Samples.bundled [109%N; 115%N]).
  reflexivity.
Defined.

(** C9: for ['millisecond'] the lookup the hook returns makes no call to
    [Intl.DisplayNames], and its result is the bundled dictionary's for the
    current locale, whether the platform has [Intl.DisplayNames] or not and
    whatever its [of] would do. *)
Theorem useDisplayNames_millisecond_skips_Intl
  (newIntlDisplayNames :
     Locale -> DisplayNames.PlatformError + DisplayNames.IntlDisplayNames)
  (currentLocale : Locale)
  (getStringForLocale :
     DisplayNames.Field -> Locale -> DisplayNames.DictionaryError + jsstring) :
  exists displayNames,
    DisplayNames.useDisplayNames newIntlDisplayNames currentLocale
      getStringForLocale
    = ([DisplayNames.Construct currentLocale], inr displayNames) /\
    DisplayNames.of_ displayNames DisplayNames.millisecond
    = ([], match getStringForLocale DisplayNames.millisecond currentLocale with
           | inl e => inl (DisplayNames.FromDictionary e)
           | inr s => inr (Some s)
           end).
Proof.
  rewrite useDisplayNames_returns.
  eexists. split; [reflexivity|].
  destruct (newIntlDisplayNames currentLocale) as [e|d]; simpl.
  - apply polyfillOf_result.
  - rewrite wrappedOf_millisecond. apply polyfillOf_result.
Qed.


(** * Further properties of the source *)

(** ** The display-name lookup on the standard fields *)

(** X1: on a field other than ['millisecond'], when the platform builds
    [Intl.DisplayNames] and its [of] returns, the lookup returns that very
    result, a string or [undefined], after exactly one platform call; the
    bundled dictionary plays no part, also when the platform has no name
    for the field. *)
Theorem useDisplayNames_standard_field_passes_Intl
  (newIntlDisplayNames :
     Locale -> DisplayNames.PlatformError + DisplayNames.IntlDisplayNames)
  (currentLocale : Locale)
  (getStringForLocale :
     DisplayNames.Field -> Locale -> DisplayNames.DictionaryError + jsstring)
  (field : DisplayNames.Field) (d : DisplayNames.IntlDisplayNames)
  (r : option jsstring) :
  field <> DisplayNames.millisecond ->
  newIntlDisplayNames currentLocale = inr d ->
  DisplayNames.intlOf d field = inr r ->
  exists displayNames,
    DisplayNames.useDisplayNames newIntlDisplayNames currentLocale
      getStringForLocale
    = ([DisplayNames.Construct currentLocale], inr displayNames) /\
    DisplayNames.of_ displayNames field = ([DisplayNames.CallOf field], inr r).
Proof.
  intros Hfield Hnew Hof. rewrite useDisplayNames_returns, Hnew.
  eexists. split; [reflexivity|]. simpl.
  rewrite (wrappedOf_standard _ _ d field Hfield), Hof. reflexivity.
Qed.

Lemma useDisplayNames_standard_field_passes_Intl_witness :
  exists displayNames,
    DisplayNames.useDisplayNames Samples.partialDisplayNames "en-US"%string
      Samples.bundled
    = ([DisplayNames.Construct "en-US"%string], inr displayNames) /\
    DisplayNames.of_ displayNames DisplayNames.weekday
    = ([DisplayNames.CallOf DisplayNames.weekday], inr None).
Proof.
  apply (useDisplayNames_standard_field_passes_Intl Samples.partialDisplayNames
           "en-US"%string Samples.bundled DisplayNames.weekday
           (DisplayNames.mkIntlDisplayNames
              (fun field =>
                 match field with
                 | DisplayNames.hour => inr (Some [104%N; 111%N; 117%N; 114%N])
                 | DisplayNames.weekday => inr None
                 | _ => inl DisplayNames.RangeError
                 end))
           None).
  - discriminate.
  - reflexivity.
  - reflexivity.
Defined.

Lemma Field_eqb_eq (a b : DisplayNames.Field) :
  DisplayNames.Field_eqb a b = true <-> a = b.
Proof. destruct a, b; simpl; split; intro H; try reflexivity; discriminate H. Qed.

(** X2: the platform calls of one lookup.  The lookup never constructs
    [Intl.DisplayNames] again; it calls [Intl.DisplayNames.of] once, with
    the field asked for, when the construction succeeded and the field is
    not ['millisecond'], and makes no platform call otherwise. *)
Theorem useDisplayNames_of_platform_calls
  (newIntlDisplayNames :
     Locale -> DisplayNames.PlatformError + DisplayNames.IntlDisplayNames)
  (currentLocale : Locale)
  (getStringForLocale :
     DisplayNames.Field -> Locale -> DisplayNames.DictionaryError + jsstring)
  (field : DisplayNames.Field) :
  exists displayNames,
    DisplayNames.useDisplayNames newIntlDisplayNames currentLocale
      getStringForLocale
    = ([DisplayNames.Construct currentLocale], inr displayNames) /\
    fst (DisplayNames.of_ displayNames field)
    = match newIntlDisplayNames currentLocale with
      | inl _ => []
      | inr _ =>
          if DisplayNames.Field_eqb field DisplayNames.millisecond then []
          else [DisplayNames.CallOf field]
      end.
Proof.
  rewrite useDisplayNames_returns.
  eexists. split; [reflexivity|].
  destruct (newIntlDisplayNames currentLocale) as [e|d]; simpl.
  - now rewrite polyfillOf_result.
  - destruct (Field_eq_dec field DisplayNames.millisecond) as [->|Hfield].
    + now rewrite wrappedOf_millisecond, polyfillOf_result.
    + rewrite (wrappedOf_standard _ _ d field Hfield), polyfillOf_result.
      destruct (DisplayNames.Field_eqb field DisplayNames.millisecond) eqn:E.
      * apply Field_eqb_eq in E. contradiction.
      * destruct (DisplayNames.intlOf d field); reflexivity.
Qed.

(** X3: when a lookup throws.  It throws exactly when the polyfill is
    reached (the field is ['millisecond'], or the platform threw at the
    construction or in [of]) and the bundled dictionary has no string for
    the field in the locale; what it throws is the dictionary's error. *)
Theorem useDisplayNames_of_throws_iff
  (newIntlDisplayNames :
     Locale -> DisplayNames.PlatformError + DisplayNames.IntlDisplayNames)
  (currentLocale : Locale)
  (getStringForLocale :
     DisplayNames.Field -> Locale -> DisplayNames.DictionaryError + jsstring)
  (field : DisplayNames.Field) :
  exists displayNames,
    DisplayNames.useDisplayNames newIntlDisplayNames currentLocale
      getStringForLocale
    = ([DisplayNames.Construct currentLocale], inr displayNames) /\
    forall ex,
      snd (DisplayNames.of_ displayNames field) = inl ex <->
      (exists e,
         getStringForLocale field currentLocale = inl e /\
         ex = DisplayNames.FromDictionary e /\
         (field = DisplayNames.millisecond \/
          DisplayNames.platformThrows newIntlDisplayNames currentLocale field
          = true)).
Proof.
  rewrite useDisplayNames_returns.
  eexists. split; [reflexivity|]. intro ex.
  unfold DisplayNames.platformThrows.
  destruct (newIntlDisplayNames currentLocale) as [e0|d]; simpl.
  - rewrite polyfillOf_result. simpl.
    destruct (getStringForLocale field currentLocale) as [e|s]; split.
    + intro H. inversion H. exists e. auto.
    + intros [e' [He' [-> _]]]. now inversion He'.
    + discriminate.
    + intros [e' [He' _]]. discriminate He'.
  - destruct (Field_eq_dec field DisplayNames.millisecond) as [->|Hfield].
    + rewrite wrappedOf_millisecond, polyfillOf_result. simpl.
      destruct (getStringForLocale DisplayNames.millisecond currentLocale)
        as [e|s]; split.
      * intro H. inversion H. exists e. auto.
      * intros [e' [He' [-> _]]]. now inversion He'.
      * discriminate.
      * intros [e' [He' _]]. discriminate He'.
    + rewrite (wrappedOf_standard _ _ d field Hfield), polyfillOf_result.
      destruct (DisplayNames.intlOf d field) as [pe|r]; simpl.
      * destruct (getStringForLocale field currentLocale) as [e|s]; split.
        -- intro H. inversion H. exists e. auto.
        -- intros [e' [He' [-> _]]]. now inversion He'.
        -- discriminate.
        -- intros [e' [He' _]]. discriminate He'.
      * split; [discriminate|].
        intros [e' [_ [_ [Hms|Hthrows]]]]; [contradiction | discriminate].
Qed.

(** ** Placeholders of the fields *)

(** X4: outside the year, the month and the day, the placeholder does not
    depend on the locale nor on the localized strings: two locales and two
    tables give the same placeholder. *)
Theorem getPlaceholder_ignores_locale_outside_date_fields
  (table1 table2 : string -> Locale -> jsstring) (field : string)
  (value : jsstring) (locale1 locale2 : Locale) :
  field <> "year"%string -> field <> "month"%string -> field <> "day"%string ->
  Placeholders.getPlaceholder table1 field value locale1
  = Placeholders.getPlaceholder table2 field value locale2.
Proof.
  intros Hy Hm Hd. unfold Placeholders.getPlaceholder.
  apply String.eqb_neq in Hy, Hm, Hd. rewrite Hy, Hm, Hd. reflexivity.
Qed.

Lemma getPlaceholder_ignores_locale_outside_date_fields_witness :
  Placeholders.getPlaceholder Samples.noStrings "hour" [49%N] "en-US"%string
  = Placeholders.getPlaceholder (fun _ _ => [121%N]) "hour" [49%N] "ar-EG"%string.
Proof.
  apply (getPlaceholder_ignores_locale_outside_date_fields Samples.noStrings
           (fun _ _ => [121%N]) "hour" [49%N] "en-US"%string "ar-EG"%string);
    discriminate.
Defined.

(** X5: for every field name other than the era, the day period, the year,
    the month and the day (known or not), the placeholder is made of en
    dashes only, whatever the value and the locale: three for
    ['fractionalSecond'], two for any other name. *)
Theorem getPlaceholder_dashes
  (table : string -> Locale -> jsstring) (field : string) (value : jsstring)
  (locale : Locale) :
  field <> "era"%string -> field <> "dayPeriod"%string ->
  field <> "year"%string -> field <> "month"%string -> field <> "day"%string ->
  Placeholders.getPlaceholder table field value locale
  = repeat EN_DASH (if String.eqb field "fractionalSecond" then 3 else 2).
Proof.
  intros He Hp Hy Hm Hd. unfold Placeholders.getPlaceholder.
  apply String.eqb_neq in He, Hp, Hy, Hm, Hd. rewrite He, Hp, Hy, Hm, Hd.
  simpl. destruct (String.eqb field "fractionalSecond"); reflexivity.
Qed.

Lemma getPlaceholder_dashes_witness :
  Placeholders.getPlaceholder Samples.noStrings "millisecond" [] "en-US"%string
  = repeat EN_DASH (if String.eqb "millisecond" "fractionalSecond" then 3 else 2).
Proof.
  apply (getPlaceholder_dashes Samples.noStrings "millisecond" [] "en-US"%string);
    discriminate.
Defined.

(** ** The segment tables *)


(** ** Stepping and setting the millisecond *)

(** Rounding towards lower values: the cycled field lands on a multiple of
    the step inside the range. *)
Lemma cycleValue_round_down_multiple (value step max : Z) :
  step < 0 -> 0 <= value <= max ->
  let r := DateValue.cycleValue value step 0 max true in
  r mod (- step) = 0 /\ 0 <= r <= max.
Proof.
  intros Hstep Hvalue. unfold DateValue.cycleValue.
  rewrite (Z.sgn_neg step), (Z.abs_neq step) by lia.
  destruct (Z.ltb_spec 0 step) as [Hno|_]; [lia|].
  set (start := if value + -1 <? 0 then max else value + -1).
  assert (Hstart : 0 <= start <= max)
    by (unfold start; destruct (Z.ltb_spec (value + -1) 0); lia).
  assert (Hlow : 0 <= start / - step) by (apply Z.div_pos; lia).
  assert (Hhigh : start / - step * - step <= start)
    by (rewrite Z.mul_comm; apply Z.mul_div_le; lia).
  destruct (Z.ltb_spec max (start / - step * - step)) as [Hover|Hin]; [lia|].
  split; [apply Z.mod_mul; lia | nia].
Qed.

(** X7: [addSegment] on the millisecond, by any amount other than 0, gives
    a value whose millisecond segment is inside the limits
    [getSegmentLimits] reports (0 to 999) and is a multiple of the size of
    the amount; the hour, the minute and the second are as before. *)
Theorem addSegment_millisecond_within_limits
  (otherLimits :
     DateValue.DateTimeValue -> DateFieldState.SegmentType ->
     DateFieldState.SegmentLimits)
  (otherAdd :
     DateValue.DateTimeValue -> DateFieldState.SegmentType -> Z ->
     DateValue.DateTimeValue)
  (v : DateValue.DateTimeValue) (amount : Z) :
  amount <> 0 -> 0 <= DateValue.getMillisecond v <= 999 ->
  exists n,
    DateFieldState.getSegmentLimits otherLimits
      (DateFieldState.addSegment otherAdd v DateFieldState.fractionalSecond amount)
      DateFieldState.fractionalSecond
    = DateFieldState.mkSegmentLimits (Some n) (Some 0) (Some 999) /\
    0 <= n <= 999 /\ n mod Z.abs amount = 0 /\
    DateValue.timeOf
      (DateFieldState.addSegment otherAdd v DateFieldState.fractionalSecond amount)
    = DateValue.mkTimeFields (DateValue.hour (DateValue.timeOf v))
        (DateValue.minute (DateValue.timeOf v))
        (DateValue.second (DateValue.timeOf v)) n.
Proof.
  intros Hamount Hms. eexists.
  split; [apply getSegmentLimits_fractionalSecond|].
  assert (Hcycle :
    let r := DateValue.cycleValue (DateValue.getMillisecond v) amount 0 999 true in
    0 <= r <= 999 /\ r mod Z.abs amount = 0).
  { destruct (Z.lt_total amount 0) as [Hneg|[Hz|Hpos]]; [|contradiction|].
    - rewrite (Z.abs_neq amount) by lia.
      destruct (cycleValue_round_down_multiple
                  (DateValue.getMillisecond v) amount 999 Hneg Hms); auto.
    - rewrite (Z.abs_eq amount) by lia.
      destruct (cycleValue_round_multiple
                  (DateValue.getMillisecond v) amount 999 Hpos Hms); auto. }
  destruct v as [t | d t | d t z o]; simpl in *;
    (split; [apply Hcycle | split; [apply Hcycle | reflexivity]]).
Qed.

Lemma addSegment_millisecond_within_limits_witness :
  exists n,
    DateFieldState.getSegmentLimits Samples.noLimits
      (DateFieldState.addSegment Samples.unchanged
         (DateValue.newTime 12 30 45 (Some 950)) DateFieldState.fractionalSecond
         (-100))
      DateFieldState.fractionalSecond
    = DateFieldState.mkSegmentLimits (Some n) (Some 0) (Some 999) /\
    0 <= n <= 999 /\ n mod Z.abs (-100) = 0 /\
    DateValue.timeOf
      (DateFieldState.addSegment Samples.unchanged
         (DateValue.newTime 12 30 45 (Some 950)) DateFieldState.fractionalSecond
         (-100))
    = DateValue.mkTimeFields 12 30 45 n.
Proof.
  apply (addSegment_millisecond_within_limits Samples.noLimits Samples.unchanged
           (DateValue.newTime 12 30 45 (Some 950)) (-100)).
  - discriminate.
  - unfold DateValue.getMillisecond. simpl. lia.
Defined.

(** A single step with rounding is a plain step: up and down by one,
    wrapping at the ends of the range. *)
Lemma cycleValue_up_1 (x : Z) :
  0 <= x <= 999 -> DateValue.cycleValue x 1 0 999 true = (x + 1) mod 1000.
Proof.
  intro Hx. unfold DateValue.cycleValue, DateValue.ceilDiv. simpl Z.sgn.
  change (Z.abs 1) with 1. change (0 <? 1) with true. cbv iota.
  destruct (Z.ltb_spec (x + 1) 0) as [Hneg|_]; [lia|].
  rewrite Z.div_1_r, Z.mul_1_r, Z.opp_involutive.
  destruct (Z.ltb_spec 999 (x + 1)) as [Hover|Hin].
  - replace x with 999 by lia. reflexivity.
  - symmetry. apply Z.mod_small. lia.
Qed.

Lemma cycleValue_down_1 (x : Z) :
  0 <= x <= 999 -> DateValue.cycleValue x (-1) 0 999 true = (x - 1) mod 1000.
Proof.
  intro Hx. unfold DateValue.cycleValue. simpl Z.sgn.
  change (Z.abs (-1)) with 1. change (0 <? -1) with false. cbv iota.
  rewrite Z.div_1_r, Z.mul_1_r.
  destruct (Z.ltb_spec (x + -1) 0) as [Hneg|Hpos].
  - replace x with 0 by lia. reflexivity.
  - destruct (Z.ltb_spec 999 (x + -1)) as [Hover|Hin]; [lia|].
    symmetry. apply Z.mod_small. lia.
Qed.

Lemma withTime_timeOf (v : DateValue.DateTimeValue) (t : DateValue.TimeFields) :
  DateValue.timeOf (DateValue.withTime v t) = t.
Proof. destruct v; reflexivity. Qed.

Lemma withTime_withTime (v : DateValue.DateTimeValue) (t u : DateValue.TimeFields) :
  DateValue.withTime (DateValue.withTime v t) u = DateValue.withTime v u.
Proof. destruct v; reflexivity. Qed.

Lemma withTime_same (v : DateValue.DateTimeValue) :
  DateValue.withTime v
    (DateValue.mkTimeFields (DateValue.hour (DateValue.timeOf v))
       (DateValue.minute (DateValue.timeOf v))
       (DateValue.second (DateValue.timeOf v))
       (DateValue.millisecond (DateValue.timeOf v)))
  = v.
Proof. destruct v as [[h m s ms] | d [h m s ms] | d [h m s ms] z o]; reflexivity. Qed.

(** Two steps of the millisecond in a row, as one change of the field. *)
Lemma addSegment_millisecond_twice
  (otherAdd :
     DateValue.DateTimeValue -> DateFieldState.SegmentType -> Z ->
     DateValue.DateTimeValue)
  (v : DateValue.DateTimeValue) (a b : Z) :
  DateFieldState.addSegment otherAdd
    (DateFieldState.addSegment otherAdd v DateFieldState.fractionalSecond a)
    DateFieldState.fractionalSecond b
  = DateValue.withTime v
      (DateValue.mkTimeFields (DateValue.hour (DateValue.timeOf v))
         (DateValue.minute (DateValue.timeOf v))
         (DateValue.second (DateValue.timeOf v))
         (DateValue.cycleValue
            (DateValue.cycleValue (DateValue.getMillisecond v) a 0 999 true)
            b 0 999 true)).
Proof.
  unfold DateFieldState.addSegment, DateValue.cycle.
  rewrite withTime_timeOf, withTime_withTime. reflexivity.
Qed.

(** X8: the single steps of the millisecond.  Incrementing adds one and
    wraps from 999 to 0, decrementing subtracts one and wraps from 0 to 999
    (the rounding that [addSegment] always asks for changes nothing at step
    one), and each undoes the other. *)
Theorem increment_decrement_millisecond
  (otherAdd :
     DateValue.DateTimeValue -> DateFieldState.SegmentType -> Z ->
     DateValue.DateTimeValue)
  (v : DateValue.DateTimeValue) :
  0 <= DateValue.getMillisecond v <= 999 ->
  DateValue.getMillisecond
    (DateFieldState.increment otherAdd v DateFieldState.fractionalSecond)
  = (DateValue.getMillisecond v + 1) mod 1000 /\
  DateValue.getMillisecond
    (DateFieldState.decrement otherAdd v DateFieldState.fractionalSecond)
  = (DateValue.getMillisecond v - 1) mod 1000 /\
  DateFieldState.decrement otherAdd
    (DateFieldState.increment otherAdd v DateFieldState.fractionalSecond)
    DateFieldState.fractionalSecond
  = v /\
  DateFieldState.increment otherAdd
    (DateFieldState.decrement otherAdd v DateFieldState.fractionalSecond)
    DateFieldState.fractionalSecond
  = v.
Proof.
  intro Hms.
  assert (Hup : 0 <= (DateValue.getMillisecond v + 1) mod 1000 <= 999)
    by (pose proof (Z.mod_pos_bound (DateValue.getMillisecond v + 1) 1000); lia).
  assert (Hdown : 0 <= (DateValue.getMillisecond v - 1) mod 1000 <= 999)
    by (pose proof (Z.mod_pos_bound (DateValue.getMillisecond v - 1) 1000); lia).
  unfold DateFieldState.increment, DateFieldState.decrement.
  repeat split.
  - unfold DateFieldState.addSegment, DateValue.cycle, DateValue.getMillisecond.
    rewrite withTime_timeOf. simpl. now apply cycleValue_up_1.
  - unfold DateFieldState.addSegment, DateValue.cycle, DateValue.getMillisecond.
    rewrite withTime_timeOf. simpl. now apply cycleValue_down_1.
  - rewrite addSegment_millisecond_twice.
    rewrite (cycleValue_up_1 _ Hms), (cycleValue_down_1 _ Hup).
    replace (((DateValue.getMillisecond v + 1) mod 1000 - 1) mod 1000)
      with (DateValue.millisecond (DateValue.timeOf v)).
    + apply withTime_same.
    + unfold DateValue.getMillisecond in *.
      destruct (Z.eq_dec (DateValue.millisecond (DateValue.timeOf v)) 999)
        as [->|Hne]; [reflexivity|].
      rewrite (Z.mod_small (_ + 1)) by lia.
      rewrite Z.mod_small by lia. lia.
  - rewrite addSegment_millisecond_twice.
    rewrite (cycleValue_down_1 _ Hms), (cycleValue_up_1 _ Hdown).
    replace (((DateValue.getMillisecond v - 1) mod 1000 + 1) mod 1000)
      with (DateValue.millisecond (DateValue.timeOf v)).
    + apply withTime_same.
    + unfold DateValue.getMillisecond in *.
      destruct (Z.eq_dec (DateValue.millisecond (DateValue.timeOf v)) 0)
        as [->|Hne]; [reflexivity|].
      rewrite (Z.mod_small (_ - 1)) by lia.
      rewrite Z.mod_small by lia. lia.
Qed.

Lemma increment_decrement_millisecond_witness :
  DateValue.getMillisecond
    (DateFieldState.increment Samples.unchanged
       (DateValue.newTime 23 59 59 (Some 999)) DateFieldState.fractionalSecond)
  = (DateValue.getMillisecond (DateValue.newTime 23 59 59 (Some 999)) + 1)
      mod 1000 /\
  DateValue.getMillisecond
    (DateFieldState.decrement Samples.unchanged
       (DateValue.newTime 23 59 59 (Some 999)) DateFieldState.fractionalSecond)
  = (DateValue.getMillisecond (DateValue.newTime 23 59 59 (Some 999)) - 1)
      mod 1000 /\
  DateFieldState.decrement Samples.unchanged
    (DateFieldState.increment Samples.unchanged
       (DateValue.newTime 23 59 59 (Some 999)) DateFieldState.fractionalSecond)
    DateFieldState.fractionalSecond
  = DateValue.newTime 23 59 59 (Some 999) /\
  DateFieldState.increment Samples.unchanged
    (DateFieldState.decrement Samples.unchanged
       (DateValue.newTime 23 59 59 (Some 999)) DateFieldState.fractionalSecond)
    DateFieldState.fractionalSecond
  = DateValue.newTime 23 59 59 (Some 999).
Proof.
  apply (increment_decrement_millisecond Samples.unchanged
           (DateValue.newTime 23 59 59 (Some 999))).
  unfold DateValue.getMillisecond. simpl. lia.
Defined.

Lemma multiples_of_100 (x : Z) :
  0 <= x <= 999 -> x mod 100 = 0 ->
  x = 0 \/ x = 100 \/ x = 200 \/ x = 300 \/ x = 400 \/ x = 500 \/ x = 600
  \/ x = 700 \/ x = 800 \/ x = 900.
Proof.
  intros Hx Hmod. pose proof (Z.div_mod x 100). lia.
Qed.

Lemma cycleValue_page_up_down (x : Z) :
  0 <= x <= 999 -> x mod 100 = 0 ->
  DateValue.cycleValue (DateValue.cycleValue x 100 0 999 true) (-100) 0 999 true
  = x.
Proof.
  intros Hx Hmod.
  destruct (multiples_of_100 x Hx Hmod)
    as [->|[->|[->|[->|[->|[->|[->|[->|[->| ->]]]]]]]]]; reflexivity.
Qed.

(** X9: a page decrement undoes a page increment of the millisecond
    exactly when the millisecond is a multiple of 100: from 300 the two
    lead back to 300 (and from 900, through 0, back to 900), from 950 or
    from 1 they do not lead back. *)
Theorem decrementPage_undoes_incrementPage_iff
  (otherAdd :
     DateValue.DateTimeValue -> DateFieldState.SegmentType -> Z ->
     DateValue.DateTimeValue)
  (v : DateValue.DateTimeValue) :
  0 <= DateValue.getMillisecond v <= 999 ->
  (exists r,
     DateFieldState.incrementPage otherAdd v DateFieldState.fractionalSecond
     = Some r /\
     DateFieldState.decrementPage otherAdd r DateFieldState.fractionalSecond
     = Some v)
  <-> DateValue.getMillisecond v mod 100 = 0.
Proof.
  intro Hms.
  unfold DateFieldState.incrementPage, DateFieldState.decrementPage.
  cbn [DateFieldState.PAGE_STEP].
  split.
  - intros [r [Hr Hv]]. injection Hr as <-. injection Hv as Hv'.
    change (DateFieldState.addSegment otherAdd
              (DateFieldState.addSegment otherAdd v
                 DateFieldState.fractionalSecond 100)
              DateFieldState.fractionalSecond (-100) = v) in Hv'.
    rewrite addSegment_millisecond_twice in Hv'.
    apply (f_equal DateValue.getMillisecond) in Hv'.
    unfold DateValue.getMillisecond at 1 in Hv'.
    rewrite withTime_timeOf in Hv'. cbn [DateValue.millisecond] in Hv'.
    destruct (cycleValue_round_multiple (DateValue.getMillisecond v) 100 999)
      as [_ Hup]; [lia | exact Hms |].
    destruct (cycleValue_round_down_multiple
                (DateValue.cycleValue (DateValue.getMillisecond v) 100 0 999 true)
                (-100) 999) as [Hmul _]; [lia | exact Hup |].
    rewrite Hv' in Hmul. exact Hmul.
  - intro Hmod. eexists. split; [reflexivity|].
    change (Z.opp 100) with (-100).
    rewrite addSegment_millisecond_twice.
    rewrite (cycleValue_page_up_down _ Hms Hmod).
    f_equal. apply withTime_same.
Qed.

Lemma decrementPage_undoes_incrementPage_iff_witness :
  (exists r,
     DateFieldState.incrementPage Samples.unchanged
       (DateValue.newTime 12 30 45 (Some 900)) DateFieldState.fractionalSecond
     = Some r /\
     DateFieldState.decrementPage Samples.unchanged r
       DateFieldState.fractionalSecond
     = Some (DateValue.newTime 12 30 45 (Some 900)))
  <-> DateValue.getMillisecond (DateValue.newTime 12 30 45 (Some 900)) mod 100
      = 0.
Proof.
  apply (decrementPage_undoes_incrementPage_iff Samples.unchanged
           (DateValue.newTime 12 30 45 (Some 900))).
  unfold DateValue.getMillisecond. simpl. lia.
Defined.
